(** * The algebra of differentiable scalar fields

    A shallow embedding of [sage/manifolds/differentiable/scalarfield_algebra.py]:
    the class [DiffScalarFieldAlgebra] with its constructor and its four
    methods [_coerce_map_from_], [_repr_], [_latex_] and [__reduce__].

    Python objects live in a store and are designated by references; a
    method is a computation that reads (and could write) the store and
    either returns a value or raises. *)

From Stdlib Require Import Ascii.
From stdpp Require Import base option gmap strings pretty.

(** ** Classes *)

(** The classes a stored object can have.  [Derived name base] is a class
    obtained by inheritance from [base], such as the dynamic class
    [DiffScalarFieldAlgebra_with_category] that Sage gives to the instances
    (doctest of [__init__]). *)
Inductive pyclass : Type :=
  | ScalarFieldAlgebra
  | DiffScalarFieldAlgebra
  | SymbolicRing
  | Builtin (name : string)
  | Derived (name : string) (base : pyclass).

#[global] Instance pyclass_eq_dec : EqDecision pyclass.
Proof. solve_decision. Defined.

(** [issubclass c k]: [k] is [c] or is reached from [c] along the bases;
    the base of [DiffScalarFieldAlgebra] is [ScalarFieldAlgebra]
    ([class DiffScalarFieldAlgebra(ScalarFieldAlgebra)]). *)
Fixpoint issubclass (c k : pyclass) : bool :=
  if decide (c = k) then true
  else match c with
       | Derived _ b => issubclass b k
       | DiffScalarFieldAlgebra => bool_decide (ScalarFieldAlgebra = k)
       | ScalarFieldAlgebra | SymbolicRing | Builtin _ => false
       end.

(** ** Differentiability degree *)

(** What [diff_degree()] returns: Sage's [infinity] or an integer. *)
Inductive degree : Type :=
  | infinity
  | finite (k : Z).

#[global] Instance degree_eq_dec : EqDecision degree.
Proof. solve_decision. Defined.

(** [str] of a degree: the decimal writing of an integer; Sage prints its
    [infinity] as [+Infinity]. *)
Definition str_degree (k : degree) : string :=
  match k with
  | infinity => "+Infinity"
  | finite n => pretty n
  end.

(** ** The domain, a collaborator *)

(** The manifold classes are not part of this module.  The module uses four
    operations of a domain: the containment test [is_subset], the accessor
    [diff_degree], the text rendering used by [format] and the LaTeX
    rendering [_latex_]. *)
Class Domain (D : Type) : Type := {
  is_subset : D → D → bool;
  diff_degree : D → degree;
  domain_str : D → string;
  domain_latex : D → string;
}.

(** ** Store, exceptions, computations *)

Abbreviation ref := positive.

(** A stored object: its runtime class and its attribute [_domain], [None]
    while the attribute is not bound. *)
Record object (D : Type) : Type := Object {
  ob_class : pyclass;
  ob_domain : option D;
}.
Arguments Object {D} _ _.
Arguments ob_class {D} _.
Arguments ob_domain {D} _.

Inductive exn : Type :=
  | AttributeError
  | TypeError
  | ValueError
  | IndexError
  | DanglingReference.

Inductive result (A : Type) : Type :=
  | Ok (a : A)
  | Raise (e : exn).
Arguments Ok {A} _.
Arguments Raise {A} _.

(** A computation takes the store and gives a result and the store after. *)
Definition py (D A : Type) : Type := gmap ref (object D) → result A * gmap ref (object D).

#[global] Instance py_ret {D} : MRet (py D) :=
  fun A (a : A) h => (Ok a, h).

#[global] Instance py_bind {D} : MBind (py D) :=
  fun A B (k : A → py D B) (m : py D A) h =>
    match m h with
    | (Ok a, h') => k a h'
    | (Raise e, h') => (Raise e, h')
    end.

#[global] Instance py_throw {D} : MThrow exn (py D) :=
  fun A (e : exn) h => (Raise e, h).

(** [type(a)] *)
Definition class_of {D} (a : ref) : py D pyclass :=
  fun h => match h !! a with
           | Some o => (Ok (ob_class o), h)
           | None => (Raise DanglingReference, h)
           end.

(** [isinstance(a, k)] *)
Definition isinstance {D} (a : ref) (k : pyclass) : py D bool :=
  c ← class_of a; mret (issubclass c k).

(** [a._domain], read *)
Definition get_domain {D} (a : ref) : py D D :=
  fun h => match h !! a with
           | Some o => match ob_domain o with
                       | Some d => (Ok d, h)
                       | None => (Raise AttributeError, h)
                       end
           | None => (Raise DanglingReference, h)
           end.

(** [a._domain = d], write *)
Definition set_domain {D} (a : ref) (d : D) : py D unit :=
  fun h => match h !! a with
           | Some o => (Ok tt, <[a := Object (ob_class o) (Some d)]> h)
           | None => (Raise DanglingReference, h)
           end.

(** [object.__new__(c)]: a new object of class [c], no attribute bound. *)
Definition new_object {D} (c : pyclass) : py D ref :=
  fun h => let a := fresh (dom h) in (Ok a, <[a := Object c None]> h).

(** A pure result, as a computation that leaves the store alone. *)
Definition lift {D A} (r : result A) : py D A := fun h => (r, h).

(** ** String formatting *)

Definition result_map {A B} (f : A → B) (r : result A) : result B :=
  match r with
  | Ok a => Ok (f a)
  | Raise e => Raise e
  end.

(** [t.format] applied to arguments already rendered as text, for templates whose
    replacement fields are all the empty field [{}]; the doubled braces are
    the escapes of a brace.  A field takes the next argument, and arguments
    left over are ignored. *)
Fixpoint format (t : string) (args : list string) : result string :=
  match t with
  | EmptyString => Ok EmptyString
  | String c t1 =>
      if Ascii.eqb c "{"%char then
        match t1 with
        | String c1 t2 =>
            if Ascii.eqb c1 "}"%char then
              match args with
              | a :: args' => result_map (String.append a) (format t2 args')
              | [] => Raise IndexError
              end
            else if Ascii.eqb c1 "{"%char then result_map (String c) (format t2 args)
            else Raise ValueError
        | EmptyString => Raise ValueError
        end
      else if Ascii.eqb c "}"%char then
        match t1 with
        | String c1 t2 =>
            if Ascii.eqb c1 "}"%char then result_map (String c) (format t2 args)
            else Raise ValueError
        | EmptyString => Raise ValueError
        end
      else result_map (String c) (format t1 args)
  end.

(** ** The class [DiffScalarFieldAlgebra] *)

Section DiffScalarFieldAlgebra.

Context {D : Type} `{!Domain D}.

(** The module-level name [SR], bound to the symbolic ring. *)
Variable SR : ref.

(** Modelled from the spec: the constructor of the base class,
    [ScalarFieldAlgebra.__init__], which is not in this module: given a
    domain object, it stores it (in the attribute [_domain]). *)
Definition ScalarFieldAlgebra__init__ (self : ref) (domain : D) : py D unit :=
  set_domain self domain.

Definition __init__ (self : ref) (domain : D) : py D unit :=
  ScalarFieldAlgebra__init__ self domain.

Definition _coerce_map_from_ (self other : ref) : py D bool :=
  if decide (other = SR) then
    mret true
  else
    b ← isinstance other DiffScalarFieldAlgebra;
    if b : bool then
      d ← get_domain self;
      d' ← get_domain other;
      mret (is_subset d d')
    else
      mret false.

Definition _repr_ (self : ref) : py D string :=
  d ← get_domain self;
  s ← lift (format "the {}" [domain_str d]);
  mret ("Algebra of differentiable scalar fields on " +:+ s).

Definition _latex_ (self : ref) : py D string :=
  d ← get_domain self;
  let degree := diff_degree d in
  latex_degree ←
    (if decide (degree = infinity) then mret "\infty"
     else lift (format "{}" [str_degree degree]));
  d' ← get_domain self;
  mret (((("C^{" +:+ latex_degree) +:+ "}\left(") +:+ domain_latex d')
          +:+ "\right)").

Definition __reduce__ (self : ref) : py D (pyclass * list D) :=
  d ← get_domain self;
  mret (DiffScalarFieldAlgebra, [d]).

(** Calling a class on arguments, as unpickling does with the pair given
    by [__reduce__]: a new object of that class is made and initialised by
    [__init__], which takes exactly one argument.  Only the classes that
    inherit this [__init__] are covered. *)
Definition instantiate (cls : pyclass) (args : list D) : py D ref :=
  if issubclass cls DiffScalarFieldAlgebra then
    match args with
    | [domain] =>
        self ← new_object cls;
        __init__ self domain;;
        mret self
    | _ => mthrow TypeError
    end
  else mthrow TypeError.

(** [loads(dumps(self))]: the pair given by [__reduce__] is taken apart and
    its class is called on its arguments. *)
Definition loads_dumps (self : ref) : py D ref :=
  r ← __reduce__ self;
  instantiate r.1 r.2.

End DiffScalarFieldAlgebra.

(** ** Vocabulary of the properties *)

Section Vocabulary.

Context {D : Type} `{!EqDecision D}.

(** The runtime class of what [a] designates. *)
Definition class_in (h : gmap ref (object D)) (a : ref) : option pyclass :=
  ob_class <$> h !! a.

(** [a] designates an algebra instance, that is an instance of
    [DiffScalarFieldAlgebra], whose domain is [d]. *)
Definition algebra_on (h : gmap ref (object D)) (a : ref) (d : D) : bool :=
  match h !! a with
  | Some o =>
      issubclass (ob_class o) DiffScalarFieldAlgebra
      && bool_decide (ob_domain o = Some d)
  | None => false
  end.

(** The instances of [DiffScalarFieldAlgebra] went through [__init__]:
    their attribute [_domain] is bound. *)
Definition initialised (o : object D) : bool :=
  if issubclass (ob_class o) DiffScalarFieldAlgebra
  then bool_decide (is_Some (ob_domain o))
  else true.

(** Equality of two algebras, decided by the equality of their domains. *)
Definition algebra_eq (h : gmap ref (object D)) (a b : ref) : bool :=
  match h !! a, h !! b with
  | Some oa, Some ob =>
      issubclass (ob_class oa) DiffScalarFieldAlgebra
      && issubclass (ob_class ob) DiffScalarFieldAlgebra
      && bool_decide (is_Some (ob_domain oa))
      && bool_decide (ob_domain oa = ob_domain ob)
  | _, _ => false
  end.

(** A computation that leaves every store as it found it, whatever it
    returns or raises. *)
Definition reads_only {A} (m : py D A) : Prop := ∀ h, (m h).2 = h.

End Vocabulary.

(** The character [c] does not occur in [s]. *)
Fixpoint lacks (c : ascii) (s : string) : bool :=
  match s with
  | EmptyString => true
  | String a s' => negb (Ascii.eqb a c) && lacks c s'
  end.


(** ** The domains and algebras of the doctests *)

(** The sphere [M] of the class docstring with its open subsets [U], [V] and
    [W] (the intersection of [U] and [V]), all smooth, and a manifold [N] of
    class C^2 that is no part of the sphere. *)
Module Sample.

Inductive region : Type := M | U | V | W | N.

#[global] Instance region_eq_dec : EqDecision region.
Proof. solve_decision. Defined.

(** Containment as the docstring declares it: [U] and [V] are open subsets
    of [M], [W] is one of [U], of [V] and of [M], and every domain is a
    subset of itself. *)
Definition region_is_subset (a b : region) : bool :=
  match a, b with
  | M, M | U, U | V, V | W, W | N, N => true
  | U, M | V, M | W, M | W, U | W, V => true
  | _, _ => false
  end.

Definition region_diff_degree (a : region) : degree :=
  match a with
  | N => finite 2
  | _ => infinity
  end.

Definition region_str (a : region) : string :=
  match a with
  | M => "2-dimensional differentiable manifold M"
  | U => "Open subset U of the 2-dimensional differentiable manifold M"
  | V => "Open subset V of the 2-dimensional differentiable manifold M"
  | W => "Open subset W of the 2-dimensional differentiable manifold M"
  | N => "3-dimensional differentiable manifold N"
  end.

Definition region_latex (a : region) : string :=
  match a with
  | M => "M" | U => "U" | V => "V" | W => "W" | N => "N"
  end.

#[global] Instance region_domain : Domain region := {|
  is_subset := region_is_subset;
  diff_degree := region_diff_degree;
  domain_str := region_str;
  domain_latex := region_latex;
|}.

(** The runtime class of the algebras made by [scalar_field_algebra()]. *)
Definition with_category : pyclass :=
  Derived "DiffScalarFieldAlgebra_with_category" DiffScalarFieldAlgebra.

(** References: the symbolic ring, the algebras on [M], [U], [W] and [N],
    an algebra of merely continuous scalar fields on [M], the ring of
    integers, and a plain [DiffScalarFieldAlgebra] on [M]. *)
Definition SR : ref := 1%positive.
Definition CM : ref := 2%positive.
Definition CU : ref := 3%positive.
Definition CW : ref := 4%positive.
Definition CN : ref := 5%positive.
Definition C0M : ref := 6%positive.
Definition ZZ : ref := 7%positive.
Definition CM' : ref := 8%positive.

Definition store : gmap ref (object region) :=
  list_to_map
    [ (SR, Object SymbolicRing None);
      (CM, Object with_category (Some M));
      (CU, Object with_category (Some U));
      (CW, Object with_category (Some W));
      (CN, Object with_category (Some N));
      (C0M, Object (Derived "ScalarFieldAlgebra_with_category" ScalarFieldAlgebra) (Some M));
      (ZZ, Object (Builtin "IntegerRing_class") None);
      (CM', Object DiffScalarFieldAlgebra (Some M)) ].

(** The store with one more object, made by [__new__] and not yet
    initialised. *)
Definition CX : ref := 9%positive.

Definition store_new : gmap ref (object region) :=
  <[CX := Object DiffScalarFieldAlgebra None]> store.

End Sample.


(** * Properties *)

(** ** Strings *)

Lemma append_empty_r (s : string) : s +:+ "" = s.
Proof.
  induction s as [|a s IH]; [reflexivity|].
  change (String a (s +:+ "") = String a s). by rewrite IH.
Qed.

Lemma append_assoc (s1 s2 s3 : string) : (s1 +:+ s2) +:+ s3 = s1 +:+ s2 +:+ s3.
Proof.
  induction s1 as [|a s1 IH]; [reflexivity|].
  change (String a ((s1 +:+ s2) +:+ s3) = String a (s1 +:+ s2 +:+ s3)).
  by rewrite IH.
Qed.

(** The two templates of the module. *)
Lemma format_the (s : string) : format "the {}" [s] = Ok ("the " +:+ s).
Proof. cbn. by rewrite append_empty_r. Qed.

Lemma format_field (s : string) : format "{}" [s] = Ok s.
Proof. cbn. by rewrite append_empty_r. Qed.

(** ** Reading the store *)

Section Reading.

Context {D : Type} `{!EqDecision D}.
Implicit Types (h : gmap ref (object D)) (a : ref) (d : D).

Lemma algebra_on_inv h a d :
  algebra_on h a d = true →
  ∃ c, h !! a = Some (Object c (Some d))
       ∧ issubclass c DiffScalarFieldAlgebra = true.
Proof.
  unfold algebra_on. destruct (h !! a) as [[c od]|]; [|done].
  cbn. intros [Hc Hd%bool_decide_eq_true]%andb_true_iff. subst od. eauto.
Qed.

Lemma get_domain_algebra h a d :
  algebra_on h a d = true → get_domain a h = (Ok d, h).
Proof.
  intros (c & Ha & _)%algebra_on_inv. unfold get_domain. by rewrite Ha.
Qed.

Lemma isinstance_algebra h a d :
  algebra_on h a d = true →
  isinstance a DiffScalarFieldAlgebra h = (Ok true, h).
Proof.
  intros (c & Ha & Hc)%algebra_on_inv.
  unfold isinstance, class_of, mbind, py_bind, mret, py_ret.
  rewrite Ha. cbn. by rewrite Hc.
Qed.

Lemma isinstance_class h a k k' :
  class_in h a = Some k → isinstance a k' h = (Ok (issubclass k k'), h).
Proof.
  unfold class_in, isinstance, class_of, mbind, py_bind, mret, py_ret.
  destruct (h !! a) as [o|]; [|done]. cbn. by intros [= ->].
Qed.

(** Running a sequence: the first part, then the rest on its outcome. *)
Lemma bind_ok {A B} (m : py D A) (k : A → py D B) h x h' :
  m h = (Ok x, h') → (m ≫= k) h = k x h'.
Proof. intros Hm. unfold mbind, py_bind. by rewrite Hm. Qed.

Lemma bind_raise {A B} (m : py D A) (k : A → py D B) h e h' :
  m h = (Raise e, h') → (m ≫= k) h = (Raise e, h').
Proof. intros Hm. unfold mbind, py_bind. by rewrite Hm. Qed.

(** *** Computations that only read *)

Lemma reads_only_ret {A} (x : A) : reads_only (D:=D) (mret x).
Proof. by intros h. Qed.

Lemma reads_only_throw {A} (e : exn) : reads_only (D:=D) (A:=A) (mthrow e).
Proof. by intros h. Qed.

Lemma reads_only_lift {A} (r : result A) : reads_only (D:=D) (lift r).
Proof. by intros h. Qed.

Lemma reads_only_class_of a : reads_only (D:=D) (class_of a).
Proof. intros h. unfold class_of. by destruct (h !! a). Qed.

Lemma reads_only_get_domain a : reads_only (D:=D) (get_domain a).
Proof.
  intros h. unfold get_domain.
  destruct (h !! a) as [[c [d|]]|]; done.
Qed.

Lemma reads_only_bind {A B} (m : py D A) (k : A → py D B) :
  reads_only m → (∀ x, reads_only (k x)) → reads_only (m ≫= k).
Proof.
  intros Hm Hk h. unfold mbind, py_bind.
  specialize (Hm h). destruct (m h) as [[x|e] h']; cbn in Hm; subst h'.
  - apply Hk.
  - done.
Qed.

Lemma reads_only_isinstance a k : reads_only (D:=D) (isinstance a k).
Proof.
  apply reads_only_bind; [apply reads_only_class_of|].
  intros c. apply reads_only_ret.
Qed.

Lemma reads_only_if {A} (b : bool) (m1 m2 : py D A) :
  reads_only m1 → reads_only m2 → reads_only (if b then m1 else m2).
Proof. by destruct b. Qed.

Lemma reads_only_decide {A} (P : Prop) `{!Decision P} (m1 m2 : py D A) :
  reads_only m1 → reads_only m2 → reads_only (if decide P then m1 else m2).
Proof. by destruct (decide P). Qed.

End Reading.

Create HintDb frame discriminated.
#[export] Hint Resolve reads_only_ret reads_only_throw reads_only_lift
  reads_only_class_of reads_only_get_domain reads_only_isinstance
  reads_only_if reads_only_decide : frame.
#[export] Hint Extern 2 (reads_only (_ ≫= _)) =>
  apply reads_only_bind; [|intros ?] : frame.

(** ** The coercion predicate *)

Section Coercion.

Context {D : Type} `{!EqDecision D, !Domain D}.
Variable SR : ref.
Implicit Types (h : gmap ref (object D)) (self other : ref) (d : D).

(** The test on the domains is reached when [other] is an algebra and is
    not [SR]. *)
Lemma coerce_between_algebras h self other d d' :
  other ≠ SR →
  algebra_on h self d = true →
  algebra_on h other d' = true →
  _coerce_map_from_ SR self other h = (Ok (is_subset d d'), h).
Proof.
  intros Hne Hself Hother. unfold _coerce_map_from_.
  destruct (decide (other = SR)) as [|_]; [done|].
  rewrite (bind_ok _ _ _ _ _ (isinstance_algebra _ _ _ Hother)).
  rewrite (bind_ok _ _ _ _ _ (get_domain_algebra _ _ _ Hself)).
  by rewrite (bind_ok _ _ _ _ _ (get_domain_algebra _ _ _ Hother)).
Qed.

(** An algebra instance is not the symbolic ring. *)
Lemma algebra_not_SR h self d :
  class_in h SR = Some SymbolicRing →
  algebra_on h self d = true →
  self ≠ SR.
Proof.
  intros HSR (c & Hself & Hc)%algebra_on_inv ->.
  unfold class_in in HSR. rewrite Hself in HSR.
  cbn in HSR. injection HSR as ->. done.
Qed.

(** The first branch: the argument is the object that [SR] names. *)
Lemma coerce_is_SR h self other :
  other = SR → _coerce_map_from_ SR self other h = (Ok true, h).
Proof.
  intros ->. unfold _coerce_map_from_. by destruct (decide (SR = SR)).
Qed.

(** The last branch: the argument is of another class. *)
Lemma coerce_other_class h self other k :
  other ≠ SR →
  class_in h other = Some k →
  issubclass k DiffScalarFieldAlgebra = false →
  _coerce_map_from_ SR self other h = (Ok false, h).
Proof.
  intros Hne Hk Hsub. unfold _coerce_map_from_.
  destruct (decide (other = SR)) as [|_]; [done|].
  rewrite (bind_ok _ _ _ _ _ (isinstance_class _ _ _ _ Hk)).
  by rewrite Hsub.
Qed.

(** C2: whatever the algebra instance [self] and the store, the coercion
    predicate called with the symbolic ring [SR] itself (the comparison is
    on the identity of the object) returns true. *)
Theorem coerce_from_base_ring h self :
  _coerce_map_from_ SR self SR h = (Ok true, h).
Proof. by apply coerce_is_SR. Qed.

(** C3: when the argument is not [SR] and its class [k] does not derive
    from [DiffScalarFieldAlgebra], the coercion predicate returns false. *)
Theorem coerce_from_unrelated h self other k :
  other ≠ SR →
  class_in h other = Some k →
  issubclass k DiffScalarFieldAlgebra = false →
  _coerce_map_from_ SR self other h = (Ok false, h).
Proof. apply coerce_other_class. Qed.

(** C7, amended: called on an algebra instance with a stored object [o] as
    argument that, when it is an instance of [DiffScalarFieldAlgebra], has
    its attribute [_domain] bound (as [__init__] leaves every instance),
    the coercion predicate does not raise: it returns a boolean and leaves
    the store as it was; the boolean is false when the argument is neither
    [SR] nor an instance of [DiffScalarFieldAlgebra].  The containment test
    of the domains is a total function here. *)
Theorem coerce_never_raises h self other d o :
  algebra_on h self d = true →
  h !! other = Some o →
  initialised o = true →
  ∃ b : bool,
    _coerce_map_from_ SR self other h = (Ok b, h)
    ∧ (other ≠ SR →
       issubclass (ob_class o) DiffScalarFieldAlgebra = false →
       b = false).
Proof.
  intros Hself Hother Hinit.
  destruct (decide (other = SR)) as [->|Hne].
  { exists true. split; [by apply coerce_is_SR|done]. }
  destruct (issubclass (ob_class o) DiffScalarFieldAlgebra) eqn:Hsub.
  - unfold initialised in Hinit. rewrite Hsub in Hinit.
    apply bool_decide_eq_true in Hinit as [d' Hd'].
    exists (is_subset d d'). split; [|done].
    apply coerce_between_algebras; [done..|].
    unfold algebra_on. rewrite Hother, Hsub, Hd'. cbn.
    by apply bool_decide_eq_true.
  - exists false. split; [|done].
    apply (coerce_other_class _ _ _ (ob_class o)); [done| |done].
    unfold class_in. by rewrite Hother.
Qed.

(** C9: the coercion predicate is reflexive.  The containment test being
    non-strict at the domain [d] (a domain is a subset of itself), an
    algebra on [d] accepts the coercion from any algebra on [d], itself
    included. *)
Theorem coerce_reflexive h self other d :
  algebra_on h self d = true →
  algebra_on h other d = true →
  is_subset d d = true →
  _coerce_map_from_ SR self other h = (Ok true, h).
Proof.
  intros Hself Hother Hrefl.
  destruct (decide (other = SR)) as [->|Hne].
  - by apply coerce_is_SR.
  - rewrite <- Hrefl. by apply coerce_between_algebras.
Qed.

(** C1, amended: for algebras [A1] on [D1] and [A2] on [D2] with [D1] a
    subset of [D2], the predicate called on [A1] with [A2] returns true,
    and called on [A2] with [A1] it returns the outcome of the test that
    [D2] is a subset of [D1]: false unless [D2] is a subset of [D1] as
    well, as it is when the two domains are the same. *)
Theorem coerce_restriction h a1 a2 d1 d2 :
  class_in h SR = Some SymbolicRing →
  algebra_on h a1 d1 = true →
  algebra_on h a2 d2 = true →
  is_subset d1 d2 = true →
  _coerce_map_from_ SR a1 a2 h = (Ok true, h)
  ∧ _coerce_map_from_ SR a2 a1 h = (Ok (is_subset d2 d1), h).
Proof.
  intros HSR H1 H2 H12. split.
  - rewrite <- H12.
    apply coerce_between_algebras; [|done..].
    by apply (algebra_not_SR h a2 d2).
  - apply coerce_between_algebras; [|done..].
    by apply (algebra_not_SR h a1 d1).
Qed.

End Coercion.

(** ** The two renderings *)

Section Rendering.

Context {D : Type} `{!EqDecision D, !Domain D}.
Implicit Types (h : gmap ref (object D)) (self : ref) (d : D).

(** The degree as [_latex_] writes it. *)
Lemma latex_degree_run h (k : degree) :
  (if decide (k = infinity) then mret "\infty"
   else lift (format "{}" [str_degree k])) h
  = (Ok match k with infinity => "\infty" | finite n => pretty n end, h).
Proof.
  destruct k as [|n]; [reflexivity|].
  destruct (decide (finite n = infinity)) as [|_]; [done|].
  unfold lift. by rewrite format_field.
Qed.

(** C4: the text of an algebra with domain [d] is exactly
    ["Algebra of differentiable scalar fields on the "] followed by the
    text of [d]. *)
Theorem repr_is_prefix_then_domain h self d :
  algebra_on h self d = true →
  _repr_ self h
  = (Ok ("Algebra of differentiable scalar fields on the " +:+ domain_str d), h).
Proof.
  intros Hself. unfold _repr_.
  rewrite (bind_ok _ _ _ _ _ (get_domain_algebra _ _ _ Hself)).
  unfold lift at 1. rewrite format_the. reflexivity.
Qed.

(** C5, amended: the LaTeX text of an algebra with domain [d] is [C^{k}]
    followed by the LaTeX text of [d] between [\left(] and [\right)],
    where [k] is [\infty] when the degree of [d] is infinity and the
    decimal writing of the degree otherwise. *)
Theorem latex_is_class_of_domain h self d :
  algebra_on h self d = true →
  _latex_ self h
  = (Ok ("C^{"
         +:+ match diff_degree d with
             | infinity => "\infty"
             | finite n => pretty n
             end
         +:+ "}\left(" +:+ domain_latex d +:+ "\right)"), h).
Proof.
  intros Hself. unfold _latex_.
  rewrite (bind_ok _ _ _ _ _ (get_domain_algebra _ _ _ Hself)).
  cbv zeta.
  rewrite (bind_ok _ _ _ _ _ (latex_degree_run h (diff_degree d))).
  rewrite (bind_ok _ _ _ _ _ (get_domain_algebra _ _ _ Hself)).
  unfold mret, py_ret. by rewrite !append_assoc.
Qed.

End Rendering.

(** ** Pickling *)

Section Pickling.

Context {D : Type} `{!EqDecision D, !Domain D}.
Implicit Types (h : gmap ref (object D)) (self : ref) (d : D).

Lemma reduce_run h self d :
  algebra_on h self d = true →
  __reduce__ self h = (Ok (DiffScalarFieldAlgebra, [d]), h).
Proof.
  intros Hself. unfold __reduce__.
  by rewrite (bind_ok _ _ _ _ _ (get_domain_algebra _ _ _ Hself)).
Qed.

(** Calling the class on a domain makes one new object, on that domain,
    and touches no other. *)
Lemma instantiate_run h d :
  instantiate DiffScalarFieldAlgebra [d] h
  = (Ok (fresh (dom h)),
     <[fresh (dom h) := Object DiffScalarFieldAlgebra (Some d)]> h).
Proof.
  unfold instantiate. cbn [issubclass].
  destruct (decide (DiffScalarFieldAlgebra = DiffScalarFieldAlgebra)); [|done].
  unfold __init__, ScalarFieldAlgebra__init__, new_object, set_domain.
  unfold mbind, py_bind, mret, py_ret. cbn.
  rewrite lookup_insert_eq. cbn. by rewrite insert_insert_eq.
Qed.

Lemma fresh_ref_not_stored h self (o : object D) :
  h !! self = Some o → fresh (dom h) ≠ self.
Proof.
  intros Hself Heq. apply (is_fresh (dom h)).
  rewrite Heq. apply elem_of_dom. eauto.
Qed.

Lemma algebra_on_rebuilt h self d :
  algebra_on h self d = true →
  algebra_eq (<[fresh (dom h) := Object DiffScalarFieldAlgebra (Some d)]> h)
    self (fresh (dom h)) = true.
Proof.
  intros (c & Hself & Hc)%algebra_on_inv. unfold algebra_eq.
  rewrite lookup_insert_ne by (by apply (fresh_ref_not_stored h self _ Hself)).
  rewrite Hself, lookup_insert_eq. cbn [ob_class ob_domain].
  rewrite Hc. cbn.
  rewrite andb_true_iff, !bool_decide_eq_true. split; [eauto|done].
Qed.

(** C6: [__reduce__] on an algebra with domain [d] returns a class and the
    one-element tuple [(d,)], and calling that class on [d] makes an
    algebra equal to the original, equality being that of the domains. *)
Theorem reduce_roundtrip h self d :
  algebra_on h self d = true →
  ∃ (k : pyclass) (a' : ref) (h' : gmap ref (object D)),
    __reduce__ self h = (Ok (k, [d]), h)
    ∧ instantiate k [d] h = (Ok a', h')
    ∧ algebra_eq h' self a' = true.
Proof.
  intros Hself. eexists _, _, _. split; [by apply reduce_run|].
  split; [apply instantiate_run|]. by apply algebra_on_rebuilt.
Qed.

(** C10: whatever the runtime class [c] of the instance,
    [DiffScalarFieldAlgebra] or a class derived from it, the class in the
    pair given by [__reduce__] is [DiffScalarFieldAlgebra], and what
    [loads(dumps(self))] rebuilds is an instance of
    [DiffScalarFieldAlgebra]. *)
Theorem reduce_names_fixed_class h self c d :
  h !! self = Some (Object c (Some d)) →
  issubclass c DiffScalarFieldAlgebra = true →
  (∃ args, __reduce__ self h = (Ok (DiffScalarFieldAlgebra, args), h))
  ∧ ∃ (a' : ref) (h' : gmap ref (object D)),
      loads_dumps self h = (Ok a', h')
      ∧ isinstance a' DiffScalarFieldAlgebra h' = (Ok true, h').
Proof.
  intros Hc Hsub.
  assert (algebra_on h self d = true) as Hself.
  { unfold algebra_on. rewrite Hc. cbn. rewrite Hsub. cbn.
    by apply bool_decide_eq_true. }
  split; [eexists; by apply reduce_run|].
  eexists _, _. split.
  - unfold loads_dumps.
    rewrite (bind_ok _ _ _ _ _ (reduce_run _ _ _ Hself)). apply instantiate_run.
  - apply (isinstance_class _ _ DiffScalarFieldAlgebra).
    unfold class_in. by rewrite lookup_insert_eq.
Qed.

End Pickling.

(** ** The methods only read *)

Section Frame.

Context {D : Type} `{!EqDecision D, !Domain D}.
Variable SR : ref.

Lemma coerce_reads_only self other : reads_only (_coerce_map_from_ SR self other).
Proof. unfold _coerce_map_from_. auto 10 with frame. Qed.

Lemma repr_reads_only self : reads_only (D:=D) (_repr_ self).
Proof. unfold _repr_. auto 10 with frame. Qed.

Lemma latex_reads_only self : reads_only (D:=D) (_latex_ self).
Proof. unfold _latex_. cbv zeta. auto 10 with frame. Qed.

Lemma reduce_reads_only self : reads_only (D:=D) (__reduce__ self).
Proof. unfold __reduce__. auto 10 with frame. Qed.

(** C8: each of [_coerce_map_from_], [_repr_], [_latex_] and [__reduce__],
    run from any store on any references, ends in that same store,
    whether it returns or raises: no object is changed, no [_domain] is
    bound anew. *)
Theorem methods_leave_store (h : gmap ref (object D)) (self other : ref) :
  (_coerce_map_from_ SR self other h).2 = h
  ∧ (_repr_ self h).2 = h
  ∧ (_latex_ self h).2 = h
  ∧ (__reduce__ self h).2 = h.
Proof.
  repeat split.
  - apply coerce_reads_only.
  - apply repr_reads_only.
  - apply latex_reads_only.
  - apply reduce_reads_only.
Qed.

End Frame.

(** * The doctests, run on the sample store *)

Section Doctests.

Import Sample.

(** [CM._coerce_map_from_(SR)], [CM._coerce_map_from_(CU)] and
    [CU._coerce_map_from_(CM)]. *)
Example doctest_coerce_SR : _coerce_map_from_ SR CM SR store = (Ok true, store).
Proof. reflexivity. Qed.

Example doctest_coerce_CM_CU : _coerce_map_from_ SR CM CU store = (Ok false, store).
Proof. reflexivity. Qed.

Example doctest_coerce_CU_CM : _coerce_map_from_ SR CU CM store = (Ok true, store).
Proof. reflexivity. Qed.

(** [CW.has_coerce_map_from(CM)] and [CM.has_coerce_map_from(CW)]. *)
Example doctest_coerce_CW_CM : _coerce_map_from_ SR CW CM store = (Ok true, store).
Proof. reflexivity. Qed.

Example doctest_coerce_CM_CW : _coerce_map_from_ SR CM CW store = (Ok false, store).
Proof. reflexivity. Qed.

Example doctest_repr :
  _repr_ CM store
  = (Ok "Algebra of differentiable scalar fields on the 2-dimensional differentiable manifold M",
     store).
Proof. reflexivity. Qed.

Example doctest_latex : _latex_ CM store = (Ok "C^{\infty}\left(M\right)", store).
Proof. reflexivity. Qed.

Example latex_finite_degree : _latex_ CN store = (Ok "C^{2}\left(N\right)", store).
Proof. reflexivity. Qed.

Example doctest_reduce :
  __reduce__ CM store = (Ok (DiffScalarFieldAlgebra, [M]), store).
Proof. reflexivity. Qed.

(** Unlike the four methods, the constructor writes: it binds [_domain]. *)
Example init_writes : (__init__ CM U store).2 ≠ store.
Proof.
  intros Heq. apply (f_equal (λ h, ob_domain <$> h !! CM)) in Heq.
  vm_compute in Heq. discriminate.
Qed.

(** An instance whose [_domain] is not bound makes the test on the domains
    raise. *)
Example coerce_uninitialised :
  (_coerce_map_from_ SR CM 9%positive
     (<[9%positive := Object DiffScalarFieldAlgebra None]> store)).1
  = Raise AttributeError.
Proof. reflexivity. Qed.

End Doctests.

(** * The statements at the sample store *)

Section Instances.

Import Sample.

(** C1 as first stated fails: [M] is a subset of [M], so the claim would
    have the algebra on [M] refuse the coercion from the algebra on [M];
    the predicate accepts it.  The same for two distinct algebra objects
    on [M]. *)
Lemma coerce_reverse_counterexample :
  (algebra_on store CM M = true
   ∧ is_subset M M = true
   ∧ _coerce_map_from_ SR CM CM store ≠ (Ok false, store))
  ∧ (algebra_on store CM' M = true
     ∧ _coerce_map_from_ SR CM' CM store ≠ (Ok false, store)).
Proof.
  repeat split; try reflexivity.
  - intros Heq. apply (f_equal fst) in Heq. vm_compute in Heq. discriminate.
  - intros Heq. apply (f_equal fst) in Heq. vm_compute in Heq. discriminate.
Qed.

Lemma coerce_restriction_witness :
  class_in store SR = Some SymbolicRing
  ∧ algebra_on store CW W = true
  ∧ algebra_on store CM M = true
  ∧ is_subset W M = true
  ∧ _coerce_map_from_ SR CW CM store = (Ok true, store)
  ∧ _coerce_map_from_ SR CM CW store = (Ok (is_subset M W), store).
Proof.
  repeat (split; [reflexivity|]).
  apply (coerce_restriction SR store CW CM W M); reflexivity.
Defined.

Lemma coerce_from_unrelated_witness :
  ZZ ≠ SR
  ∧ class_in store ZZ = Some (Builtin "IntegerRing_class")
  ∧ issubclass (Builtin "IntegerRing_class") DiffScalarFieldAlgebra = false
  ∧ _coerce_map_from_ SR CM ZZ store = (Ok false, store).
Proof.
  split; [discriminate|]. repeat (split; [reflexivity|]).
  apply (coerce_from_unrelated SR store CM ZZ (Builtin "IntegerRing_class"));
    [discriminate|reflexivity|reflexivity].
Defined.

Lemma repr_is_prefix_then_domain_witness :
  algebra_on store CW W = true
  ∧ _repr_ CW store
    = (Ok ("Algebra of differentiable scalar fields on the " +:+ domain_str W), store).
Proof.
  split; [reflexivity|].
  apply (repr_is_prefix_then_domain store CW W). reflexivity.
Defined.

(** C5 as first stated fails: the domain is not put between plain
    parentheses. *)
Lemma latex_parentheses_counterexample :
  algebra_on store CM M = true
  ∧ diff_degree M = infinity
  ∧ _latex_ CM store
    ≠ (Ok ("C^{" +:+ "\infty" +:+ "}(" +:+ domain_latex M +:+ ")"), store).
Proof.
  repeat split; try reflexivity.
  intros Heq. apply (f_equal fst) in Heq. vm_compute in Heq. discriminate.
Qed.

Lemma latex_is_class_of_domain_witness :
  algebra_on store CN N = true
  ∧ _latex_ CN store = (Ok ("C^{" +:+ pretty 2%Z +:+ "}\left(" +:+ "N" +:+ "\right)"), store).
Proof.
  split; [reflexivity|].
  exact (latex_is_class_of_domain store CN N eq_refl).
Defined.

Lemma reduce_roundtrip_witness :
  algebra_on store CM M = true
  ∧ ∃ (k : pyclass) (a' : ref) (h' : gmap ref (object region)),
      __reduce__ CM store = (Ok (k, [M]), store)
      ∧ instantiate k [M] store = (Ok a', h')
      ∧ algebra_eq h' CM a' = true.
Proof.
  split; [reflexivity|].
  apply (reduce_roundtrip store CM M). reflexivity.
Defined.

(** C7 as first stated fails: an instance made by [__new__], on which
    [__init__] has not run, is an argument on which the test of the domains
    raises. *)
Lemma coerce_raises_counterexample :
  algebra_on store_new CM M = true
  ∧ store_new !! CX = Some (Object DiffScalarFieldAlgebra None)
  ∧ _coerce_map_from_ SR CM CX store_new = (Raise AttributeError, store_new)
  ∧ ¬ ∃ b : bool, _coerce_map_from_ SR CM CX store_new = (Ok b, store_new).
Proof.
  repeat (split; [reflexivity|]).
  intros [b Hb]. apply (f_equal fst) in Hb. vm_compute in Hb. discriminate.
Qed.

Lemma coerce_never_raises_witness :
  algebra_on store CW W = true
  ∧ store !! C0M
    = Some (Object (Derived "ScalarFieldAlgebra_with_category" ScalarFieldAlgebra) (Some M))
  ∧ ∃ b : bool, _coerce_map_from_ SR CW C0M store = (Ok b, store) ∧ b = false.
Proof.
  split; [reflexivity|]. split; [reflexivity|].
  destruct (coerce_never_raises SR store CW C0M W
              (Object (Derived "ScalarFieldAlgebra_with_category" ScalarFieldAlgebra) (Some M)))
    as (b & Hrun & Hb); [reflexivity..|].
  exists b. split; [exact Hrun|]. apply Hb; [discriminate|reflexivity].
Defined.

Lemma coerce_reflexive_witness :
  algebra_on store CM M = true
  ∧ is_subset M M = true
  ∧ _coerce_map_from_ SR CM CM store = (Ok true, store).
Proof.
  repeat (split; [reflexivity|]).
  apply (coerce_reflexive SR store CM CM M); reflexivity.
Defined.

Lemma reduce_names_fixed_class_witness :
  store !! CM = Some (Object with_category (Some M))
  ∧ issubclass with_category DiffScalarFieldAlgebra = true
  ∧ with_category ≠ DiffScalarFieldAlgebra
  ∧ (∃ args, __reduce__ CM store = (Ok (DiffScalarFieldAlgebra, args), store))
  ∧ ∃ (a' : ref) (h' : gmap ref (object region)),
      loads_dumps CM store = (Ok a', h')
      ∧ isinstance a' DiffScalarFieldAlgebra h' = (Ok true, h').
Proof.
  repeat (split; [reflexivity|]). split; [discriminate|].
  apply (reduce_names_fixed_class store CM with_category M); reflexivity.
Defined.

End Instances.

(** * Further properties of the methods *)

(** ** The methods on any stored object *)

Section Unfolding.

Context {D : Type} `{!EqDecision D, !Domain D}.
Variable SR : ref.
Implicit Types (h : gmap ref (object D)) (self other : ref) (d : D).

Lemma get_domain_bound h self (o : object D) d :
  h !! self = Some o → ob_domain o = Some d → get_domain self h = (Ok d, h).
Proof. intros Ho Hd. unfold get_domain. by rewrite Ho, Hd. Qed.

Lemma get_domain_unbound h self (o : object D) :
  h !! self = Some o → ob_domain o = None →
  get_domain self h = (Raise AttributeError, h).
Proof. intros Ho Hd. unfold get_domain. by rewrite Ho, Hd. Qed.

(** The three branches of [_coerce_map_from_], and the two reads of
    [_domain] in their order, on stored objects. *)
Lemma coerce_run h self other (os oo : object D) :
  h !! self = Some os →
  h !! other = Some oo →
  _coerce_map_from_ SR self other h
  = if decide (other = SR) then (Ok true, h)
    else if issubclass (ob_class oo) DiffScalarFieldAlgebra then
      match ob_domain os, ob_domain oo with
      | Some d, Some d' => (Ok (is_subset d d'), h)
      | _, _ => (Raise AttributeError, h)
      end
    else (Ok false, h).
Proof.
  intros Hs Ho. unfold _coerce_map_from_.
  destruct (decide (other = SR)) as [|_]; [done|].
  assert (class_in h other = Some (ob_class oo)) as Hk
    by (unfold class_in; by rewrite Ho).
  rewrite (bind_ok _ _ _ _ _ (isinstance_class _ _ _ _ Hk)).
  destruct (issubclass (ob_class oo) DiffScalarFieldAlgebra); [|done].
  destruct (ob_domain os) as [d|] eqn:Hds.
  - rewrite (bind_ok _ _ _ _ _ (get_domain_bound _ _ _ _ Hs Hds)).
    destruct (ob_domain oo) as [d'|] eqn:Hdo.
    + by rewrite (bind_ok _ _ _ _ _ (get_domain_bound _ _ _ _ Ho Hdo)).
    + by rewrite (bind_raise _ _ _ _ _ (get_domain_unbound _ _ _ Ho Hdo)).
  - by rewrite (bind_raise _ _ _ _ _ (get_domain_unbound _ _ _ Hs Hds)).
Qed.

Lemma repr_run h self (o : object D) d :
  h !! self = Some o → ob_domain o = Some d →
  _repr_ self h
  = (Ok ("Algebra of differentiable scalar fields on the " +:+ domain_str d), h).
Proof.
  intros Ho Hd. unfold _repr_.
  rewrite (bind_ok _ _ _ _ _ (get_domain_bound _ _ _ _ Ho Hd)).
  unfold lift at 1. rewrite format_the. reflexivity.
Qed.

Lemma latex_run h self (o : object D) d :
  h !! self = Some o → ob_domain o = Some d →
  _latex_ self h
  = (Ok ("C^{"
         +:+ match diff_degree d with
             | infinity => "\infty"
             | finite n => pretty n
             end
         +:+ "}\left(" +:+ domain_latex d +:+ "\right)"), h).
Proof.
  intros Ho Hd. unfold _latex_.
  rewrite (bind_ok _ _ _ _ _ (get_domain_bound _ _ _ _ Ho Hd)).
  cbv zeta.
  rewrite (bind_ok _ _ _ _ _ (latex_degree_run h (diff_degree d))).
  rewrite (bind_ok _ _ _ _ _ (get_domain_bound _ _ _ _ Ho Hd)).
  unfold mret, py_ret. by rewrite !append_assoc.
Qed.

Lemma reduce_run_bound h self (o : object D) d :
  h !! self = Some o → ob_domain o = Some d →
  __reduce__ self h = (Ok (DiffScalarFieldAlgebra, [d]), h).
Proof.
  intros Ho Hd. unfold __reduce__.
  by rewrite (bind_ok _ _ _ _ _ (get_domain_bound _ _ _ _ Ho Hd)).
Qed.

Lemma algebra_on_stored h self d :
  algebra_on h self d = true →
  ∃ o, h !! self = Some o
       ∧ issubclass (ob_class o) DiffScalarFieldAlgebra = true
       ∧ ob_domain o = Some d.
Proof. intros (c & Ho & Hc)%algebra_on_inv. eauto. Qed.

End Unfolding.

(** ** When a coercion exists, and when the predicate raises *)

Section Existence.

Context {D : Type} `{!EqDecision D, !Domain D}.
Variable SR : ref.
Implicit Types (h : gmap ref (object D)) (self other : ref) (d : D).

(** X1: on an algebra with domain [d] and a stored argument, the
    predicate answers true exactly when the argument is [SR] or is an
    algebra instance whose domain contains [d]. *)
Theorem coerce_true_iff h self other d (o : object D) :
  algebra_on h self d = true →
  h !! other = Some o →
  initialised o = true →
  ∃ b : bool,
    _coerce_map_from_ SR self other h = (Ok b, h)
    ∧ (b = true ↔
       other = SR
       ∨ ∃ d', algebra_on h other d' = true ∧ is_subset d d' = true).
Proof.
  intros (os & Hs & _ & Hds)%algebra_on_stored Ho Hinit.
  rewrite (coerce_run SR h self other os o Hs Ho), Hds.
  unfold initialised in Hinit.
  destruct (decide (other = SR)) as [Heq|Hne].
  { exists true. split; [done|]. split; [auto|done]. }
  destruct (issubclass (ob_class o) DiffScalarFieldAlgebra) eqn:Hsub.
  - apply bool_decide_eq_true in Hinit as [d' Hd']. rewrite Hd'.
    exists (is_subset d d'). split; [done|]. split.
    + intros Hb. right. exists d'. split; [|done].
      unfold algebra_on. rewrite Ho, Hsub, Hd'. cbn.
      by apply bool_decide_eq_true.
    + intros [?|(d'' & (o' & Ho' & _ & Hd'')%algebra_on_stored & Hb)]; [done|].
      rewrite Ho in Ho'. injection Ho' as <-.
      rewrite Hd' in Hd''. by injection Hd'' as <-.
  - exists false. split; [done|]. split; [done|].
    intros [?|(d'' & (o' & Ho' & Hsub' & _)%algebra_on_stored & _)]; [done|].
    rewrite Ho in Ho'. injection Ho' as <-. congruence.
Qed.


(** X6: coercions between algebras compose.  When containment is
    transitive on the three domains, an algebra that accepts the coercion
    from a second one, which accepts it from a third, accepts it from the
    third. *)
Theorem coerce_transitive h a1 a2 a3 d1 d2 d3 :
  class_in h SR = Some SymbolicRing →
  algebra_on h a1 d1 = true →
  algebra_on h a2 d2 = true →
  algebra_on h a3 d3 = true →
  (is_subset d1 d2 = true → is_subset d2 d3 = true → is_subset d1 d3 = true) →
  _coerce_map_from_ SR a1 a2 h = (Ok true, h) →
  _coerce_map_from_ SR a2 a3 h = (Ok true, h) →
  _coerce_map_from_ SR a1 a3 h = (Ok true, h).
Proof.
  intros HSR H1 H2 H3 Htrans H12 H23.
  pose proof (algebra_not_SR SR h a2 d2 HSR H2) as Hne2.
  pose proof (algebra_not_SR SR h a3 d3 HSR H3) as Hne3.
  rewrite (coerce_between_algebras SR h a1 a2 d1 d2 Hne2 H1 H2) in H12.
  rewrite (coerce_between_algebras SR h a2 a3 d2 d3 Hne3 H2 H3) in H23.
  rewrite (coerce_between_algebras SR h a1 a3 d1 d3 Hne3 H1 H3).
  injection H12 as H12. injection H23 as H23. by rewrite Htrans.
Qed.

(** X4: two algebra instances on the same domain, whatever their runtime
    classes, are not told apart by the methods: they have the same text,
    the same LaTeX text and the same pickling pair, they accept the
    coercions from the same objects, and the same objects accept the
    coercion from them. *)
Theorem same_domain_same_answers h a b d other :
  class_in h SR = Some SymbolicRing →
  algebra_on h a d = true →
  algebra_on h b d = true →
  _repr_ a h = _repr_ b h
  ∧ _latex_ a h = _latex_ b h
  ∧ __reduce__ a h = __reduce__ b h
  ∧ _coerce_map_from_ SR a other h = _coerce_map_from_ SR b other h
  ∧ _coerce_map_from_ SR other a h = _coerce_map_from_ SR other b h.
Proof.
  intros HSR Ha Hb.
  pose proof (algebra_not_SR SR h a d HSR Ha) as Hna.
  pose proof (algebra_not_SR SR h b d HSR Hb) as Hnb.
  destruct (algebra_on_stored h a d Ha) as (oa & Hoa & Hca & Hda).
  destruct (algebra_on_stored h b d Hb) as (ob & Hob & Hcb & Hdb).
  split; [by rewrite (repr_run h a oa d), (repr_run h b ob d)|].
  split; [by rewrite (latex_run h a oa d), (latex_run h b ob d)|].
  split; [by rewrite (reduce_run_bound h a oa d), (reduce_run_bound h b ob d)|].
  split.
  - unfold _coerce_map_from_.
    destruct (decide (other = SR)); [done|].
    unfold mbind, py_bind.
    destruct (isinstance other DiffScalarFieldAlgebra h) as [[[|]|e] h'] eqn:Hi;
      [|done..].
    pose proof (reads_only_isinstance other DiffScalarFieldAlgebra h) as Hh.
    rewrite Hi in Hh. cbn in Hh. subst h'.
    by rewrite (get_domain_bound h a oa d), (get_domain_bound h b ob d).
  - destruct (h !! other) as [oo|] eqn:Hoo.
    + rewrite (coerce_run SR h other a oo oa Hoo Hoa).
      rewrite (coerce_run SR h other b oo ob Hoo Hob).
      destruct (decide (a = SR)); [done|]. destruct (decide (b = SR)); [done|].
      by rewrite Hca, Hcb, Hda, Hdb.
    + unfold _coerce_map_from_.
      destruct (decide (a = SR)); [done|]. destruct (decide (b = SR)); [done|].
      rewrite (bind_ok _ _ _ _ _ (isinstance_algebra _ _ _ Ha)).
      rewrite (bind_ok _ _ _ _ _ (isinstance_algebra _ _ _ Hb)).
      unfold mbind, py_bind, get_domain. by rewrite Hoo.
Qed.

End Existence.

(** ** Rendering and pickling on any stored object *)

Section Texts.

Context {D : Type} `{!EqDecision D, !Domain D}.
Implicit Types (h : gmap ref (object D)) (self : ref) (d : D).


(** X8: the text of an algebra tells its domain as far as the text of the
    domain does: two algebras with the same text are on domains with the
    same text. *)
Theorem repr_separates h a b da db :
  algebra_on h a da = true →
  algebra_on h b db = true →
  (_repr_ a h).1 = (_repr_ b h).1 →
  domain_str da = domain_str db.
Proof.
  intros (oa & Hoa & _ & Hda)%algebra_on_stored
         (ob & Hob & _ & Hdb)%algebra_on_stored.
  rewrite (repr_run h a oa da Hoa Hda), (repr_run h b ob db Hob Hdb).
  cbn [fst]. intros [= Heq]. by apply (inj (String.app _)) in Heq.
Qed.

(** X5: the test of pickling.  [loads(dumps(self))] on an algebra returns
    an algebra with the same text and the same LaTeX text as the
    original, and every object stored before is as it was. *)
Theorem loads_dumps_same_texts h self d :
  algebra_on h self d = true →
  ∃ (a' : ref) (h' : gmap ref (object D)),
    loads_dumps self h = (Ok a', h')
    ∧ (∀ a o, h !! a = Some o → h' !! a = Some o)
    ∧ (_repr_ a' h').1 = (_repr_ self h).1
    ∧ (_latex_ a' h').1 = (_latex_ self h).1.
Proof.
  intros Hself.
  destruct (algebra_on_stored h self d Hself) as (o & Ho & _ & Hd).
  exists (fresh (dom h)),
    (<[fresh (dom h) := Object DiffScalarFieldAlgebra (Some d)]> h).
  split.
  { unfold loads_dumps.
    rewrite (bind_ok _ _ _ _ _ (reduce_run _ _ _ Hself)). apply instantiate_run. }
  split.
  { intros a oa Ha. rewrite lookup_insert_ne; [done|].
    by apply (fresh_ref_not_stored h a oa). }
  rewrite (repr_run h self o d Ho Hd), (latex_run h self o d Ho Hd).
  rewrite (repr_run _ _ (Object DiffScalarFieldAlgebra (Some d)) d
             (lookup_insert_eq _ _ _) eq_refl).
  rewrite (latex_run _ _ (Object DiffScalarFieldAlgebra (Some d)) d
             (lookup_insert_eq _ _ _) eq_refl).
  done.
Qed.

End Texts.

(** ** The LaTeX text is unambiguous *)

Lemma length_append (s1 s2 : string) :
  String.length (s1 +:+ s2) = String.length s1 + String.length s2.
Proof.
  induction s1 as [|a s1 IH]; [reflexivity|].
  change (S (String.length (s1 +:+ s2)) = S (String.length s1 + String.length s2)).
  by rewrite IH.
Qed.

Lemma append_cancel_r (s1 s2 t : string) : s1 +:+ t = s2 +:+ t → s1 = s2.
Proof.
  revert s2. induction s1 as [|a s1 IH]; intros [|b s2] Heq.
  - done.
  - apply (f_equal String.length) in Heq.
    change (String b s2 +:+ t) with (String b (s2 +:+ t)) in Heq.
    cbn [String.length] in Heq. rewrite !length_append in Heq.
    cbn in Heq. lia.
  - apply (f_equal String.length) in Heq.
    change (String a s1 +:+ t) with (String a (s1 +:+ t)) in Heq.
    cbn [String.length] in Heq. rewrite !length_append in Heq.
    cbn in Heq. lia.
  - change (String a (s1 +:+ t) = String b (s2 +:+ t)) in Heq.
    injection Heq as -> Heq. f_equal. by apply IH.
Qed.

(** Two texts cut at their first occurrence of [c] agree piecewise. *)
Lemma append_split_at (c : ascii) (s1 s2 r1 r2 : string) :
  lacks c s1 = true → lacks c s2 = true →
  s1 +:+ String c r1 = s2 +:+ String c r2 →
  s1 = s2 ∧ r1 = r2.
Proof.
  revert s2. induction s1 as [|a s1 IH]; intros [|b s2] H1 H2 Heq.
  - by injection Heq as ->.
  - change (String c r1 = String b (s2 +:+ String c r2)) in Heq.
    injection Heq as <- _. cbn [lacks] in H2. by rewrite Ascii.eqb_refl in H2.
  - change (String a (s1 +:+ String c r1) = String c r2) in Heq.
    injection Heq as -> _. cbn [lacks] in H1. by rewrite Ascii.eqb_refl in H1.
  - change (String a (s1 +:+ String c r1) = String b (s2 +:+ String c r2)) in Heq.
    injection Heq as -> Heq.
    cbn [lacks] in H1, H2. apply andb_true_iff in H1 as [_ H1], H2 as [_ H2].
    destruct (IH s2 H1 H2 Heq) as [-> ->]. done.
Qed.

(** A character that is no digit and no minus sign is not in the decimal
    writing of an integer. *)
Lemma pretty_N_go_lacks (c : ascii) (x : N) (s : string) :
  (∀ d : N, pretty_N_char d ≠ c) →
  lacks c s = true → lacks c (pretty_N_go x s) = true.
Proof.
  intros Hc. revert s. induction (N.lt_wf_0 x) as [x _ IH]. intros s Hs.
  assert (x = 0 ∨ 0 < x)%N as [->|Hpos] by lia.
  - by rewrite pretty_N_go_0.
  - rewrite pretty_N_go_step by done. apply IH; [by apply N.div_lt|].
    cbn [lacks]. rewrite Hs, andb_true_r. apply negb_true_iff, Ascii.eqb_neq, Hc.
Qed.

Lemma pretty_Z_lacks (c : ascii) (n : Z) :
  (∀ d : N, pretty_N_char d ≠ c) → c ≠ "-"%char →
  lacks c (pretty n) = true.
Proof.
  intros Hc Hdash.
  assert (∀ p : positive, lacks c (pretty p) = true) as Hpos.
  { intros p. unfold pretty, pretty_positive, pretty, pretty_N.
    destruct (decide (N.pos p = 0%N)); [done|].
    by apply pretty_N_go_lacks. }
  destruct n as [|p|p]; unfold pretty, pretty_Z.
  - change (negb (Ascii.eqb (pretty_N_char 0) c) && true = true).
    rewrite andb_true_r. apply negb_true_iff, Ascii.eqb_neq, Hc.
  - apply Hpos.
  - change (lacks c (String "-" (pretty p)) = true). cbn [lacks].
    rewrite Hpos, andb_true_r. by apply negb_true_iff, Ascii.eqb_neq.
Qed.

Lemma digit_not_brace (d : N) : pretty_N_char d ≠ "}"%char.
Proof. unfold pretty_N_char. by repeat case_match. Qed.

Lemma digit_not_backslash (d : N) : pretty_N_char d ≠ "\"%char.
Proof. unfold pretty_N_char. by repeat case_match. Qed.

Section Unambiguous.

Context {D : Type} `{!EqDecision D, !Domain D}.
Implicit Types (h : gmap ref (object D)) (d : D).

(** The degree as [_latex_] writes it, as a text. *)
Lemma latex_degree_lacks_brace (k : degree) :
  lacks "}" match k with infinity => "\infty" | finite n => pretty n end = true.
Proof.
  destruct k as [|n]; [reflexivity|].
  by apply pretty_Z_lacks; [apply digit_not_brace|].
Qed.

Lemma latex_degree_inj (k1 k2 : degree) :
  match k1 with infinity => "\infty" | finite n => pretty n end
  = match k2 with infinity => "\infty" | finite n => pretty n end →
  k1 = k2.
Proof.
  assert (∀ n : Z, "\infty" ≠ pretty n) as Hne.
  { intros n Heq.
    pose proof (pretty_Z_lacks "\" n digit_not_backslash) as Hl.
    rewrite <- Heq in Hl. by specialize (Hl ltac:(done)). }
  destruct k1 as [|n1], k2 as [|n2]; intros Heq.
  - done.
  - by destruct (Hne n2).
  - by destruct (Hne n1).
  - f_equal. by apply (inj pretty).
Qed.

(** X9: the LaTeX text of an algebra is read back in one way only: two
    algebras with the same LaTeX text are on domains with the same
    differentiability degree and the same LaTeX text; the writing [\infty]
    is that of no integer degree. *)
Theorem latex_separates h a b da db :
  algebra_on h a da = true →
  algebra_on h b db = true →
  (_latex_ a h).1 = (_latex_ b h).1 →
  diff_degree da = diff_degree db ∧ domain_latex da = domain_latex db.
Proof.
  intros (oa & Hoa & _ & Hda)%algebra_on_stored
         (ob & Hob & _ & Hdb)%algebra_on_stored.
  rewrite (latex_run h a oa da Hoa Hda), (latex_run h b ob db Hob Hdb).
  cbn [fst]. intros [= Heq].
  match type of Heq with "" +:+ ?x = "" +:+ ?y => change (x = y) in Heq end.
  apply (append_split_at "}") in Heq as [Hk Hrest];
    [|apply latex_degree_lacks_brace..].
  split; [by apply latex_degree_inj|].
  apply (inj (String.app "\left(")) in Hrest.
  by apply append_cancel_r in Hrest.
Qed.

End Unambiguous.

(** ** The further properties at the sample store *)

Section FurtherInstances.

Import Sample.

Lemma coerce_true_iff_witness :
  algebra_on store CW W = true
  ∧ store !! CM = Some (Object with_category (Some M))
  ∧ initialised (Object with_category (Some M)) = true
  ∧ ∃ b : bool,
      _coerce_map_from_ SR CW CM store = (Ok b, store)
      ∧ (b = true ↔
         CM = SR ∨ ∃ d', algebra_on store CM d' = true ∧ is_subset W d' = true).
Proof.
  repeat (split; [reflexivity|]).
  apply (coerce_true_iff SR store CW CM W (Object with_category (Some M)));
    reflexivity.
Defined.


Lemma coerce_transitive_witness :
  class_in store SR = Some SymbolicRing
  ∧ algebra_on store CW W = true
  ∧ algebra_on store CU U = true
  ∧ algebra_on store CM M = true
  ∧ _coerce_map_from_ SR CW CU store = (Ok true, store)
  ∧ _coerce_map_from_ SR CU CM store = (Ok true, store)
  ∧ _coerce_map_from_ SR CW CM store = (Ok true, store).
Proof.
  repeat (split; [reflexivity|]).
  apply (coerce_transitive SR store CW CU CM W U M); reflexivity.
Defined.

Lemma same_domain_same_answers_witness :
  class_in store SR = Some SymbolicRing
  ∧ algebra_on store CM M = true
  ∧ algebra_on store CM' M = true
  ∧ class_in store CM ≠ class_in store CM'
  ∧ _repr_ CM store = _repr_ CM' store
  ∧ _latex_ CM store = _latex_ CM' store
  ∧ __reduce__ CM store = __reduce__ CM' store
  ∧ _coerce_map_from_ SR CM CW store = _coerce_map_from_ SR CM' CW store
  ∧ _coerce_map_from_ SR CW CM store = _coerce_map_from_ SR CW CM' store.
Proof.
  repeat (split; [reflexivity|]). split; [discriminate|].
  apply (same_domain_same_answers SR store CM CM' M CW); reflexivity.
Defined.


Lemma repr_separates_witness :
  algebra_on store CM M = true
  ∧ algebra_on store CM' M = true
  ∧ (_repr_ CM store).1 = (_repr_ CM' store).1
  ∧ domain_str M = domain_str M.
Proof.
  repeat (split; [reflexivity|]).
  apply (repr_separates store CM CM' M M); reflexivity.
Defined.

Lemma latex_separates_witness :
  algebra_on store CM M = true
  ∧ algebra_on store CM' M = true
  ∧ (_latex_ CM store).1 = (_latex_ CM' store).1
  ∧ diff_degree M = diff_degree M ∧ domain_latex M = domain_latex M.
Proof.
  repeat (split; [reflexivity|]).
  apply (latex_separates store CM CM' M M); reflexivity.
Defined.

Lemma loads_dumps_same_texts_witness :
  algebra_on store CM M = true
  ∧ ∃ (a' : ref) (h' : gmap ref (object region)),
      loads_dumps CM store = (Ok a', h')
      ∧ (∀ a o, store !! a = Some o → h' !! a = Some o)
      ∧ (_repr_ a' h').1 = (_repr_ CM store).1
      ∧ (_latex_ a' h').1 = (_latex_ CM store).1.
Proof.
  split; [reflexivity|].
  apply (loads_dumps_same_texts store CM M). reflexivity.
Defined.

End FurtherInstances.
